(** * Authentication endpoints of the backend template

    A shallow embedding of [app/api/endpoints/auth.py]: the route handlers are
    translated as functions in a state-and-exception monad over an abstract
    [AuthService]; the service itself ([app/services/auth.py]) is modelled
    from the specification in [Module Service].  The diagnostic mail routes
    of [auth.py] and the webhook route of [app/main.py] are translated the
    same way, over the interfaces of the mail and payment collaborators. *)

From Stdlib Require Import ZArith Lia Bool List Ascii String.
From stdpp Require Import base option gmap strings list fin_maps.
Import ListNotations.

Local Open Scope string_scope.

(** ** Exceptions and results *)

(** The exception classes the handlers name ([app.core.exceptions], the
    built-in [ValueError] and [TypeError], FastAPI's [HTTPException]).  Every
    exception carries the text [str(e)] would give; [HTTPException] carries
    its status code and detail.  The four classes of [app.core.exceptions]
    are taken as unrelated to each other, to [ValueError] and to
    [HTTPException], so that an [except] clause catches its own class only. *)
Inductive exn : Type :=
| WeakPasswordError (msg : string)
| IncorrectPasswordError (msg : string)
| InvalidTokenError (msg : string)
| UserNotFoundError (msg : string)
| ValueError (msg : string)
| TypeError (msg : string)
| HTTPException (status_code : Z) (detail : string).

(** [str(e)] *)
Definition str_exn (e : exn) : string :=
  match e with
  | WeakPasswordError m | IncorrectPasswordError m | InvalidTokenError m
  | UserNotFoundError m | ValueError m | TypeError m => m
  | HTTPException _ d => d
  end.

Inductive res (A : Type) : Type :=
| Ok (a : A)
| Raise (e : exn).
Arguments Ok {A} a.
Arguments Raise {A} e.

(** A computation reads and writes a store of type [S] and either returns or
    raises.  Writes made before a raise stay in the store. *)
Definition M (S A : Type) : Type := S -> res A * S.

Definition ret {S A} (a : A) : M S A := fun s => (Ok a, s).
Definition raise {S A} (e : exn) : M S A := fun s => (Raise e, s).
Definition bind {S A B} (m : M S A) (k : A -> M S B) : M S B :=
  fun s => match m s with
           | (Ok a, s') => k a s'
           | (Raise e, s') => (Raise e, s')
           end.
(** [try: m except ...: h e]; a handler re-raises what it does not catch. *)
Definition try_except {S A} (m : M S A) (h : exn -> M S A) : M S A :=
  fun s => match m s with
           | (Ok a, s') => (Ok a, s')
           | (Raise e, s') => h e s'
           end.
Definition lift {S A} (r : res A) : M S A := fun s => (r, s).

Notation "'run' x <- m ;; k" := (bind m (fun x => k))
  (at level 10, x name, m at level 99, k at level 200, only parsing).
Notation "'exec' m ;; k" := (bind m (fun _ => k))
  (at level 10, m at level 99, k at level 200, only parsing).

(** ** datetime *)

(** Times are microseconds.  A [datetime] is its wall-clock reading and its
    [tzinfo]: [None] for a naive value, [Some off] for an aware one whose
    [utcoffset()] is [off]. *)
Record datetime : Type := mk_datetime { wall : Z; tzinfo : option Z }.
Definition timedelta : Type := Z.

Definition timezone_utc : option Z := Some 0%Z.

(** [timedelta(minutes=m)] *)
Definition timedelta_minutes (m : Z) : timedelta := (m * 60 * 1000000)%Z.

(** [datetime.now(tz)] when the clock reads the instant [now] (UTC). *)
Definition datetime_now (now : Z) (tz : option Z) : datetime :=
  match tz with
  | None => mk_datetime now None
  | Some off => mk_datetime (now + off) (Some off)
  end.

(** [dt.replace(tzinfo=tz)] keeps the wall-clock fields. *)
Definition replace_tzinfo (dt : datetime) (tz : option Z) : datetime :=
  mk_datetime (wall dt) tz.

(** [a - b]: Python refuses to subtract a naive from an aware value. *)
Definition datetime_sub (a b : datetime) : res timedelta :=
  match tzinfo a, tzinfo b with
  | None, None => Ok (wall a - wall b)%Z
  | Some oa, Some ob => Ok ((wall a - oa) - (wall b - ob))%Z
  | _, _ => Raise (TypeError "can't subtract offset-naive and offset-aware datetimes")
  end.

(** The instant a stored value denotes when a naive value is read as UTC. *)
Definition utc_instant (dt : datetime) : Z :=
  match tzinfo dt with
  | None => wall dt
  | Some off => (wall dt - off)%Z
  end.

(** ** Schemas and responses *)

Record UserCreate : Type := { uc_email : string; uc_password : string }.
Record PasswordChange : Type :=
  { current_password : string; new_password : string }.
Record OAuth2PasswordRequestForm : Type :=
  { username : string; password : string }.

(** A user document of the store; [_id] is the text [str] gives for it. *)
Record User : Type := mk_User
  { _id : string;
    email : string;
    hashed_password : string;
    is_verified : bool;
    created_at : Z }.

Record UserResponse : Type := mk_UserResponse
  { id : string;
    resp_email : string;
    resp_is_verified : bool;
    resp_created_at : Z }.

(** What a handler returns: a dict of strings or a [UserResponse]. *)
Inductive body : Type :=
| DictBody (kv : list (string * string))
| UserBody (u : UserResponse)
| PlainBody (text : string).

Fixpoint dict_get (k : string) (kv : list (string * string)) : option string :=
  match kv with
  | [] => None
  | (k', v) :: rest => if String.eqb k k' then Some v else dict_get k rest
  end.

Record http_response : Type := mk_http { status : Z; content : body }.

(** What the framework sends for a handler's outcome: a returned value goes
    out with 200, an [HTTPException] with its own status and detail, anything
    else as the generic 500. *)
Definition respond (r : res body) : http_response :=
  match r with
  | Ok b => mk_http 200 b
  | Raise (HTTPException c d) => mk_http c (DictBody [("detail", d)])
  | Raise _ => mk_http 500 (PlainBody "Internal Server Error")
  end.

(** ** The service interface

    The handlers receive [auth_service] by dependency injection and use it
    only through these eight methods. *)
Module AuthService.
Record t (S : Type) : Type := mk
  { create_user_with_verification : UserCreate -> M S UserResponse;
    authenticate_user : string -> string -> M S (option User);
    update_password : string -> string -> string -> M S unit;
    verify_email : string -> M S unit;
    get_last_verification_sent : string -> M S (option datetime);
    resend_verification : string -> M S unit;
    send_password_reset : string -> M S unit;
    reset_password : string -> string -> M S unit }.
Arguments create_user_with_verification {S} _ _ _.
Arguments authenticate_user {S} _ _ _ _.
Arguments update_password {S} _ _ _ _ _.
Arguments verify_email {S} _ _ _.
Arguments get_last_verification_sent {S} _ _ _.
Arguments resend_verification {S} _ _ _.
Arguments send_password_reset {S} _ _ _.
Arguments reset_password {S} _ _ _ _.
End AuthService.

(** ** The mail collaborators of the diagnostic routes *)

(** The text [str(e)] gives.  For an [HTTPException] it is the framework's
    rendering of status code and detail, [str_http]. *)
Definition py_str (str_http : Z -> string -> string) (e : exn) : string :=
  match e with
  | HTTPException c d => str_http c d
  | _ => str_exn e
  end.

(** [app.services.email.EmailService], as [test_email] uses it. *)
Module EmailService.
Record t (S : Type) : Type := mk { test_email_connection : M S bool }.
Arguments test_email_connection {S} _ _.
End EmailService.

(** [fastapi_mail] and [app.core.config.settings], as
    [test_alternative_email] uses them: the two imports, the three
    constructors and the sending, each of which may raise. *)
Module FastMail.
Record Settings : Type := { MAIL_FROM : string }.
Record ConnectionConfig_args : Type :=
  { MAIL_USERNAME : string;
    MAIL_PASSWORD : string;
    conf_MAIL_FROM : string;
    MAIL_PORT : Z;
    MAIL_SERVER : string;
    MAIL_FROM_NAME : string;
    MAIL_STARTTLS : bool;
    MAIL_SSL_TLS : bool;
    USE_CREDENTIALS : bool;
    VALIDATE_CERTS : bool }.
Record MessageSchema_args : Type :=
  { subject : string;
    recipients : list string;
    msg_body : string;
    subtype : string }.
Record t (S : Type) : Type := mk
  { Conf : Type;
    Mailer : Type;
    Message : Type;
    imports : M S Settings;
    ConnectionConfig : ConnectionConfig_args -> M S Conf;
    FastMail : Conf -> M S Mailer;
    MessageSchema : MessageSchema_args -> M S Message;
    send_message : Mailer -> Message -> M S unit }.
Arguments Conf {S} _.
Arguments Mailer {S} _.
Arguments Message {S} _.
Arguments imports {S} _ _.
Arguments ConnectionConfig {S} _ _ _.
Arguments FastMail {S} _ _ _.
Arguments MessageSchema {S} _ _ _.
Arguments send_message {S} _ _ _ _.
End FastMail.

(** ** The route handlers of [auth.py] *)
Module Auth.
Section Endpoints.
Context {S : Type}.
(** [app.core.security.create_access_token], applied to the claims dict. *)
Variable create_access_token : list (string * string) -> string.
Variable auth_service : AuthService.t S.

(** Building the [UserResponse] from the dict [user]: the service hands
    back the fields of the response model. *)
Definition UserResponse_of (user : UserResponse) : UserResponse := user.

Definition register (user_data : UserCreate) : M S body :=
  try_except
    (run user <- AuthService.create_user_with_verification auth_service user_data ;;
     ret (UserBody (UserResponse_of user)))
    (fun e =>
       match e with
       | WeakPasswordError _ =>
           raise (HTTPException 400
             "Password must be at least 8 characters long and contain at least one number and one letter")
       | _ => raise e
       end).

(** [if not user]: a user document is never an empty dict, so the test is
    on [None]. *)
Definition login (form_data : OAuth2PasswordRequestForm) : M S body :=
  run user <- AuthService.authenticate_user auth_service
                (username form_data) (password form_data) ;;
  match user with
  | None => raise (HTTPException 401 "Incorrect email or password")
  | Some user =>
      let access_token := create_access_token [("sub", _id user)] in
      ret (DictBody [("access_token", access_token); ("token_type", "bearer")])
  end.

(** [current_user] is what the [get_current_user] dependency resolved. *)
Definition change_password (password_data : PasswordChange)
    (current_user : UserResponse) : M S body :=
  try_except
    (exec AuthService.update_password auth_service (id current_user)
            (current_password password_data) (new_password password_data) ;;
     ret (DictBody [("detail", "Password updated successfully")]))
    (fun e =>
       match e with
       | IncorrectPasswordError _ =>
           raise (HTTPException 401 "Current password is incorrect")
       | ValueError _ =>
           raise (HTTPException 400 (str_exn e))
       | WeakPasswordError _ =>
           raise (HTTPException 400
             "Password must be at least 8 characters long and contain at least one number and one letter")
       | _ => raise e
       end).

Definition verify_email (token : string) : M S body :=
  try_except
    (exec AuthService.verify_email auth_service token ;;
     ret (DictBody [("detail", "Email verified successfully")]))
    (fun e =>
       match e with
       | InvalidTokenError _ =>
           raise (HTTPException 400 "Invalid or expired verification token")
       | _ => raise e
       end).

(** [now] is the instant the clock shows when the handler runs. *)
Definition resend_verification (now : Z) (email : string) : M S body :=
  try_except
    (run last_sent <- AuthService.get_last_verification_sent auth_service email ;;
     exec match last_sent with
          | Some last_sent =>
              let current_time := datetime_now now timezone_utc in
              let last_sent :=
                match tzinfo last_sent with
                | None => replace_tzinfo last_sent timezone_utc
                | Some _ => last_sent
                end in
              run time_diff <- lift (datetime_sub current_time last_sent) ;;
              if (time_diff <? timedelta_minutes 2)%Z
              then raise (HTTPException 429
                     "Please wait 2 minutes before requesting another verification email")
              else ret tt
          | None => ret tt
          end ;;
     exec AuthService.resend_verification auth_service email ;;
     ret (DictBody [("detail", "Verification email resent")]))
    (fun e =>
       match e with
       | UserNotFoundError _ => raise (HTTPException 404 "User not found")
       | HTTPException _ _ => raise e
       | _ => raise e
       end).

Definition forgot_password (email : string) : M S body :=
  try_except
    (exec AuthService.send_password_reset auth_service email ;;
     ret (DictBody [("detail", "Password reset email sent")]))
    (fun e =>
       match e with
       | UserNotFoundError _ =>
           ret (DictBody [("detail", "Password reset email sent")])
       | _ => raise e
       end).

Definition reset_password (token : string) (new_password : string) : M S body :=
  try_except
    (exec AuthService.reset_password auth_service token new_password ;;
     ret (DictBody [("detail", "Password reset successfully")]))
    (fun e =>
       match e with
       | InvalidTokenError _ =>
           raise (HTTPException 400 "Invalid or expired reset token")
       | WeakPasswordError _ =>
           raise (HTTPException 400
             "Password must be at least 8 characters long and contain at least one number and one letter")
       | _ => raise e
       end).
End Endpoints.

Section EmailTests.
Context {S : Type}.
Variable str_http : Z -> string -> string.

(** [new_EmailService] is the call [EmailService()]. *)
Definition test_email (new_EmailService : M S (EmailService.t S)) : M S body :=
  run email_service <- new_EmailService ;;
  try_except
    (run success <- EmailService.test_email_connection email_service ;;
     if success
     then ret (DictBody [("detail",
                 "Email configuration test passed - emails should be working")])
     else raise (HTTPException 500
                   "Email configuration test failed - check server logs for details"))
    (fun e => raise (HTTPException 500 ("Email test failed: " ++ py_str str_http e))).

Definition test_alternative_email (fm : FastMail.t S) : M S body :=
  try_except
    (run settings <- FastMail.imports fm ;;
     run gmail_conf <- FastMail.ConnectionConfig fm
       {| FastMail.MAIL_USERNAME := "your-gmail@gmail.com";
          FastMail.MAIL_PASSWORD := "your-app-password";
          FastMail.conf_MAIL_FROM := "your-gmail@gmail.com";
          FastMail.MAIL_PORT := 587;
          FastMail.MAIL_SERVER := "smtp.gmail.com";
          FastMail.MAIL_FROM_NAME := "Test Sender";
          FastMail.MAIL_STARTTLS := true;
          FastMail.MAIL_SSL_TLS := false;
          FastMail.USE_CREDENTIALS := true;
          FastMail.VALIDATE_CERTS := true |} ;;
     run fastmail <- FastMail.FastMail fm gmail_conf ;;
     run message <- FastMail.MessageSchema fm
       {| FastMail.subject := "Alternative Email Test";
          FastMail.recipients := [FastMail.MAIL_FROM settings];
          FastMail.msg_body :=
            "<p>This is a test using Gmail SMTP to verify email functionality.</p>";
          FastMail.subtype := "html" |} ;;
     exec FastMail.send_message fm fastmail message ;;
     ret (DictBody [("detail",
            "Alternative email test passed - Gmail SMTP is working")]))
    (fun e =>
       raise (HTTPException 500
                ("Alternative email test failed: " ++ py_str str_http e))).
End EmailTests.
End Auth.

(** ** The application of [main.py] *)

(** [app.services.stripe.StripeService], as the webhook route uses it; the
    request body is a byte string, the result a dict. *)
Module StripeService.
Record t (S : Type) : Type := mk
  { handle_webhook : string -> string -> M S (list (string * string)) }.
Arguments handle_webhook {S} _ _ _ _.
End StripeService.

Module Main.
Section App.
Context {S : Type}.
(** [await request.body()] *)
Variable request_body : M S string.
(** [StripeService(app.mongodb)] *)
Variable new_StripeService : M S (StripeService.t S).
(** [logger.error(msg)]: the record is added to the log and the call
    returns. *)
Variable logger_error : string -> S -> S.

Definition root : M S body := ret (DictBody [("message", "Hello World")]).

(** [if not stripe_signature]: the header is absent or the empty string. *)
Definition stripe_webhook_direct (stripe_signature : option string) : M S body :=
  match stripe_signature with
  | Some (String _ _ as signature) =>
      try_except
        (run body <- request_body ;;
         run stripe_service <- new_StripeService ;;
         run result <- StripeService.handle_webhook stripe_service body signature ;;
         ret (DictBody result))
        (fun e =>
           match e with
           | HTTPException _ _ => raise e
           | _ =>
               fun s =>
                 (Raise (HTTPException 500 "Internal server error"),
                  logger_error ("Error processing webhook: " ++ str_exn e) s)
           end)
  | _ => raise (HTTPException 400 "Missing Stripe signature")
  end.
End App.
End Main.

(** ** Password policy *)
Module PasswordPolicy.

Definition in_range (lo hi : N) (c : ascii) : bool :=
  (lo <=? N_of_ascii c)%N && (N_of_ascii c <=? hi)%N.

(** ASCII letters and decimal digits. *)
Definition is_letter (c : ascii) : bool := in_range 65 90 c || in_range 97 122 c.
Definition is_digit (c : ascii) : bool := in_range 48 57 c.

Fixpoint has_letter (p : string) : bool :=
  match p with
  | EmptyString => false
  | String c rest => is_letter c || has_letter rest
  end.

Fixpoint has_digit (p : string) : bool :=
  match p with
  | EmptyString => false
  | String c rest => is_digit c || has_digit rest
  end.

(** Modelled from the spec: the password-strength predicate of the Auth
    Service, whose source is not among the files at hand.  "Minimum 8
    characters, at least one letter, at least one digit"; a character is one
    byte of the string. *)
Definition strength_ok (p : string) : bool :=
  (8 <=? String.length p)%nat && has_letter p && has_digit p.

End PasswordPolicy.

(** ** The store and the Auth Service *)
Module Service.
Import PasswordPolicy.

Inductive purpose : Type := Verification | PasswordReset | Access.

Definition purpose_eqb (a b : purpose) : bool :=
  match a, b with
  | Verification, Verification | PasswordReset, PasswordReset | Access, Access => true
  | _, _ => false
  end.

Record Token : Type := mk_Token
  { tok_purpose : purpose;
    tok_owner : string;
    tok_issued : Z;
    tok_expiry : Z;
    tok_consumed : bool }.

Record Mail : Type := mk_Mail
  { mail_to : string; mail_purpose : purpose; mail_token : string }.

(** The Credential Store: the user documents, the stored tokens by value,
    the per-user log of the last verification send, and what was handed to
    the Notification Gateway. *)
Record Store : Type := mk_Store
  { users : list User;
    tokens : gmap string Token;
    verification_log : gmap string datetime;
    outbox : list Mail }.

(** What the world supplies to one service call: the clock, the random value
    of a token to issue, the identifier the store gives a new document, and
    whether the gateway accepts the mail. *)
Record Env : Type := mk_Env
  { now : Z; new_token : string; new_id : string; mail_ok : bool }.

Definition lower (c : ascii) : ascii :=
  if in_range 65 90 c then ascii_of_N (N_of_ascii c + 32) else c.

Fixpoint normalize_email (e : string) : string :=
  match e with
  | EmptyString => EmptyString
  | String c rest => String (lower c) (normalize_email rest)
  end.

Definition find_user_by_email (e : string) (us : list User) : option User :=
  List.find (fun u => String.eqb (email u) e) us.

Definition find_user_by_id (i : string) (us : list User) : option User :=
  List.find (fun u => String.eqb (_id u) i) us.

Definition set_hash (h : string) (u : User) : User :=
  mk_User (_id u) (email u) h (is_verified u) (created_at u).

Definition set_verified (u : User) : User :=
  mk_User (_id u) (email u) (hashed_password u) true (created_at u).

(** Update every document that satisfies [sel]. *)
Definition update_users (sel : User -> bool) (f : User -> User)
    (us : list User) : list User :=
  List.map (fun u => if sel u then f u else u) us.

Definition consume (t : Token) : Token :=
  mk_Token (tok_purpose t) (tok_owner t) (tok_issued t) (tok_expiry t) true.

(** "A token is valid only if current time < expiry AND consumed = false",
    looked up under its purpose. *)
Definition token_valid (p : purpose) (t_now : Z) (t : Token) : bool :=
  purpose_eqb (tok_purpose t) p && negb (tok_consumed t) && (t_now <? tok_expiry t)%Z.

Definition hours (h : Z) : Z := (h * 3600 * 1000000)%Z.

Definition public (u : User) : UserResponse :=
  mk_UserResponse (_id u) (email u) (is_verified u) (created_at u).

(** Handing a mail to the gateway; a refused mail is dropped, the caller
    goes on. *)
Definition dispatch (env : Env) (m : Mail) (box : list Mail) : list Mail :=
  if mail_ok env then box ++ [m] else box.

Section Operations.
(** The password-hashing library. *)
Variable get_password_hash : string -> string.
Variable verify_password : string -> string -> bool.
(** How the service writes the instant [t] as a stored timestamp. *)
Variable stamp : Z -> datetime.

(** Modelled from the spec: [create_user_with_verification] of the Auth
    Service ([app/services/auth.py] is not among the files at hand).  The
    spec names the error of a weak password and none for a registered
    email, for which its interface table gives the answer 400; [register]
    has no [except] clause for it, so that failure is raised as the HTTP
    error itself. *)
Definition create_user_with_verification (env : Env) (d : UserCreate)
    : M Store UserResponse :=
  fun st =>
    if negb (strength_ok (uc_password d)) then
      (Raise (WeakPasswordError "Password does not meet strength requirements"), st)
    else
      let e := normalize_email (uc_email d) in
      match find_user_by_email e (users st) with
      | Some _ => (Raise (HTTPException 400 "Email already registered"), st)
      | None =>
          let u := mk_User (new_id env) e (get_password_hash (uc_password d))
                     false (now env) in
          let tok := mk_Token Verification e (now env)
                       (now env + hours 24) false in
          (Ok (public u),
           mk_Store (users st ++ [u])
                    (<[new_token env := tok]> (tokens st))
                    (<[e := stamp (now env)]> (verification_log st))
                    (dispatch env (mk_Mail e Verification (new_token env)) (outbox st)))
      end.

(** Modelled from the spec: [authenticate_user]. *)
Definition authenticate_user (e pw : string) : M Store (option User) :=
  fun st =>
    match find_user_by_email (normalize_email e) (users st) with
    | None => (Ok None, st)
    | Some u =>
        if verify_password pw (hashed_password u)
        then (Ok (Some u), st) else (Ok None, st)
    end.

(** Modelled from the spec: [update_password], its checks in the order the
    spec lists them.  The spec is silent on a [user_id] without a
    document; [UserNotFoundError] stands there. *)
Definition update_password (user_id cur new : string) : M Store unit :=
  fun st =>
    match find_user_by_id user_id (users st) with
    | None => (Raise (UserNotFoundError "User not found"), st)
    | Some u =>
        if negb (verify_password cur (hashed_password u)) then
          (Raise (IncorrectPasswordError "Current password is incorrect"), st)
        else if String.eqb new cur then
          (Raise (ValueError "New password must be different from current password"), st)
        else if negb (strength_ok new) then
          (Raise (WeakPasswordError "Password does not meet strength requirements"), st)
        else
          (Ok tt,
           mk_Store (update_users (fun v => String.eqb (_id v) user_id)
                       (set_hash (get_password_hash new)) (users st))
                    (tokens st) (verification_log st) (outbox st))
    end.

(** Modelled from the spec: [verify_email]. *)
Definition verify_email (env : Env) (t : string) : M Store unit :=
  fun st =>
    match tokens st !! t with
    | Some tok =>
        if token_valid Verification (now env) tok then
          (Ok tt,
           mk_Store (update_users (fun v => String.eqb (email v) (tok_owner tok))
                       set_verified (users st))
                    (<[t := consume tok]> (tokens st))
                    (verification_log st) (outbox st))
        else (Raise (InvalidTokenError "Invalid or expired token"), st)
    | None => (Raise (InvalidTokenError "Invalid or expired token"), st)
    end.

(** Modelled from the spec: [get_last_verification_sent]. *)
Definition get_last_verification_sent (e : string) : M Store (option datetime) :=
  fun st => (Ok (verification_log st !! normalize_email e), st).

(** Modelled from the spec: [resend_verification]. *)
Definition resend_verification (env : Env) (e : string) : M Store unit :=
  fun st =>
    let e := normalize_email e in
    match find_user_by_email e (users st) with
    | None => (Raise (UserNotFoundError "User not found"), st)
    | Some _ =>
        let tok := mk_Token Verification e (now env)
                     (now env + hours 24) false in
        (Ok tt,
         mk_Store (users st)
                  (<[new_token env := tok]> (tokens st))
                  (<[e := stamp (now env)]> (verification_log st))
                  (dispatch env (mk_Mail e Verification (new_token env)) (outbox st)))
    end.

(** Modelled from the spec: [send_password_reset]. *)
Definition send_password_reset (env : Env) (e : string) : M Store unit :=
  fun st =>
    let e := normalize_email e in
    match find_user_by_email e (users st) with
    | None => (Raise (UserNotFoundError "User not found"), st)
    | Some _ =>
        let tok := mk_Token PasswordReset e (now env)
                     (now env + hours 1) false in
        (Ok tt,
         mk_Store (users st)
                  (<[new_token env := tok]> (tokens st))
                  (verification_log st)
                  (dispatch env (mk_Mail e PasswordReset (new_token env)) (outbox st)))
    end.

(** Modelled from the spec: [reset_password]. *)
Definition reset_password (env : Env) (t new : string) : M Store unit :=
  fun st =>
    match tokens st !! t with
    | Some tok =>
        if token_valid PasswordReset (now env) tok then
          if negb (strength_ok new) then
            (Raise (WeakPasswordError "Password does not meet strength requirements"), st)
          else
            (Ok tt,
             mk_Store (update_users (fun v => String.eqb (email v) (tok_owner tok))
                         (set_hash (get_password_hash new)) (users st))
                      (<[t := consume tok]> (tokens st))
                      (verification_log st) (outbox st))
        else (Raise (InvalidTokenError "Invalid or expired token"), st)
    | None => (Raise (InvalidTokenError "Invalid or expired token"), st)
    end.

(** The service object a request is given. *)
Definition auth_service (env : Env) : AuthService.t Store :=
  AuthService.mk Store
    (create_user_with_verification env)
    authenticate_user
    update_password
    (verify_email env)
    get_last_verification_sent
    (resend_verification env)
    (send_password_reset env)
    (reset_password env).
End Operations.
End Service.

(** ** Fixtures: stand-ins for the external libraries on concrete inputs *)
Module Fixtures.

(** A service every method of which raises [e]. *)
Definition raising (e : exn) : AuthService.t unit :=
  AuthService.mk unit
    (fun _ => raise e) (fun _ _ => raise e) (fun _ _ _ => raise e)
    (fun _ => raise e) (fun _ => raise e) (fun _ => raise e)
    (fun _ => raise e) (fun _ _ => raise e).

(** A hash that is never its plaintext, and its check. *)
Definition toy_hash (p : string) : string := "$toy$" ++ p.
Definition toy_verify (p h : string) : bool := String.eqb (toy_hash p) h.

(** Timestamps written naive, in UTC. *)
Definition naive_stamp (t : Z) : datetime := mk_datetime t None.

(** An encoder that leaves the claims readable. *)
Fixpoint claims_text (data : list (string * string)) : string :=
  match data with
  | [] => ""
  | (k, v) :: rest => k ++ "=" ++ v ++ ";" ++ claims_text rest
  end.

Definition svc (env : Service.Env) : AuthService.t Service.Store :=
  Service.auth_service toy_hash toy_verify naive_stamp env.

Definition alice : User :=
  mk_User "507f1f77bcf86cd799439011" "a@x.com" (toy_hash "abc12345") false 0.

Definition env0 : Service.Env := Service.mk_Env 1000000 "tok-1" "id-1" true.

(** One registered user, no token, no verification mail sent yet. *)
Definition store_alice : Service.Store := Service.mk_Store [alice] ∅ ∅ [].

(** The same user with a pending verification token, the mail for it sent
    at instant 0 and logged without time zone. *)
Definition store_pending : Service.Store :=
  Service.mk_Store [alice]
    {["tok-0" := Service.mk_Token Service.Verification "a@x.com" 0
                   (Service.hours 24) false]}
    {["a@x.com" := naive_stamp 0]}
    [Service.mk_Mail "a@x.com" Service.Verification "tok-0"].

(** Three minutes and twenty seconds after instant 0. *)
Definition env_later : Service.Env := Service.mk_Env 200000000 "tok-2" "id-2" true.

End Fixtures.

(** ** Names for what the statements below speak of *)

(** The text the handlers give for a weak password. *)
Definition weak_password_detail : string :=
  "Password must be at least 8 characters long and contain at least one number and one letter".

Definition two_minutes : timedelta := timedelta_minutes 2.

(** The rate limit in the words of the spec: a previous send exists and
    [now - last_sent < 2 minutes], a naive [last_sent] being read as UTC. *)
Definition too_soon (now : Z) (last_sent : option datetime) : bool :=
  match last_sent with
  | Some ls => (now - utc_instant ls <? two_minutes)%Z
  | None => false
  end.

(** What an [except] clause of [resend_verification] makes of [e]. *)
Definition resend_translation (e : exn) : exn :=
  match e with
  | UserNotFoundError _ => HTTPException 404 "User not found"
  | _ => e
  end.

(** A computation keeps the property [P] of the store. *)
Definition preserves {S A : Type} (P : S -> Prop) (m : M S A) : Prop :=
  forall s r s', m s = (r, s') -> P s -> P s'.

(** Every method of a service keeps [P]. *)
Definition service_preserves {S : Type} (P : S -> Prop) (a : AuthService.t S) : Prop :=
  (forall d, preserves P (AuthService.create_user_with_verification a d)) /\
  (forall e p, preserves P (AuthService.authenticate_user a e p)) /\
  (forall i c n, preserves P (AuthService.update_password a i c n)) /\
  (forall t, preserves P (AuthService.verify_email a t)) /\
  (forall e, preserves P (AuthService.get_last_verification_sent a e)) /\
  (forall e, preserves P (AuthService.resend_verification a e)) /\
  (forall e, preserves P (AuthService.send_password_reset a e)) /\
  (forall t p, preserves P (AuthService.reset_password a t p)).

(** The token [t] is stored and marked consumed. *)
Definition consumed_in (t : string) (st : Service.Store) : Prop :=
  exists tok, Service.tokens st !! t = Some tok /\ Service.tok_consumed tok = true.

(** ** Requests

    The routes the router registers, and the run of a list of requests
    against the store, each with what the world supplies to it. *)
Inductive request : Type :=
| Register (user_data : UserCreate)
| Login (form_data : OAuth2PasswordRequestForm)
| ChangePassword (password_data : PasswordChange) (current_user : UserResponse)
| VerifyEmail (token : string)
| ResendVerification (email : string)
| ForgotPassword (email : string)
| ResetPassword (token new_password : string).

Definition route {S : Type} (create_access_token : list (string * string) -> string)
    (auth_service : AuthService.t S) (now : Z) (r : request) : M S body :=
  match r with
  | Register d => Auth.register auth_service d
  | Login f => Auth.login create_access_token auth_service f
  | ChangePassword pd cu => Auth.change_password auth_service pd cu
  | VerifyEmail t => Auth.verify_email auth_service t
  | ResendVerification e => Auth.resend_verification auth_service now e
  | ForgotPassword e => Auth.forgot_password auth_service e
  | ResetPassword t p => Auth.reset_password auth_service t p
  end.

Section Serving.
Variable create_access_token : list (string * string) -> string.
Variable get_password_hash : string -> string.
Variable verify_password : string -> string -> bool.
Variable stamp : Z -> datetime.

Definition serve (env : Service.Env) (r : request) (st : Service.Store)
    : http_response * Service.Store :=
  let '(o, st') :=
    route create_access_token
      (Service.auth_service get_password_hash verify_password stamp env)
      (Service.now env) r st in
  (respond o, st').

Fixpoint serve_all (reqs : list (Service.Env * request)) (st : Service.Store)
    : Service.Store :=
  match reqs with
  | [] => st
  | (env, r) :: rest => serve_all rest (snd (serve env r st))
  end.
End Serving.

(** The service call made for request [r] raises [e], leaving the store
    [s']: the one call of each handler, and for [resend_verification] either
    the look-up of the last send or, past the rate limit, the resend. *)
Definition raises_in {S : Type} (a : AuthService.t S) (now : Z) (r : request)
    (s : S) (e : exn) (s' : S) : Prop :=
  match r with
  | Register d => AuthService.create_user_with_verification a d s = (Raise e, s')
  | Login f =>
      AuthService.authenticate_user a (username f) (password f) s = (Raise e, s')
  | ChangePassword pd cu =>
      AuthService.update_password a (id cu) (current_password pd) (new_password pd) s
      = (Raise e, s')
  | VerifyEmail t => AuthService.verify_email a t s = (Raise e, s')
  | ResendVerification em =>
      AuthService.get_last_verification_sent a em s = (Raise e, s') \/
      (exists o s1,
          AuthService.get_last_verification_sent a em s = (Ok o, s1) /\
          too_soon now o = false /\
          AuthService.resend_verification a em s1 = (Raise e, s'))
  | ForgotPassword em => AuthService.send_password_reset a em s = (Raise e, s')
  | ResetPassword t p => AuthService.reset_password a t p s = (Raise e, s')
  end.

Definition detail_response (code : Z) (detail : string) : http_response :=
  mk_http code (DictBody [("detail", detail)]).

(** The error table of the HTTP surface: the answer to request [r] when its
    service call raises [e]. *)
Definition error_answer (r : request) (e : exn) : http_response :=
  match r, e with
  | Register _, WeakPasswordError _ => detail_response 400 weak_password_detail
  | ChangePassword _ _, IncorrectPasswordError _ =>
      detail_response 401 "Current password is incorrect"
  | ChangePassword _ _, ValueError m => detail_response 400 m
  | ChangePassword _ _, WeakPasswordError _ => detail_response 400 weak_password_detail
  | VerifyEmail _, InvalidTokenError _ =>
      detail_response 400 "Invalid or expired verification token"
  | ResendVerification _, UserNotFoundError _ => detail_response 404 "User not found"
  | ForgotPassword _, UserNotFoundError _ =>
      mk_http 200 (DictBody [("detail", "Password reset email sent")])
  | ResetPassword _ _, InvalidTokenError _ =>
      detail_response 400 "Invalid or expired reset token"
  | ResetPassword _ _, WeakPasswordError _ => detail_response 400 weak_password_detail
  | _, _ => respond (Raise e)
  end.

(** ** Names for the statements on the diagnostic and webhook routes *)

(** The [try] block of [stripe_webhook_direct] for the signature
    [signature]. *)
Definition webhook_steps {S : Type} (request_body : M S string)
    (new_StripeService : M S (StripeService.t S)) (signature : string) : M S body :=
  run body <- request_body ;;
  run stripe_service <- new_StripeService ;;
  run result <- StripeService.handle_webhook stripe_service body signature ;;
  ret (DictBody result).

Definition is_http (e : exn) : bool :=
  match e with
  | HTTPException _ _ => true
  | _ => false
  end.

Module MoreFixtures.

(** A rendering of [HTTPException] that shows its detail. *)
Definition detail_only (c : Z) (d : string) : string := d.

(** Mail services whose connection test answers [b], or raises [e]. *)
Definition answering (b : bool) : EmailService.t unit := EmailService.mk unit (ret b).
Definition failing (e : exn) : EmailService.t unit := EmailService.mk unit (raise e).

(** A mail library every step of which works, except that sending raises
    when [send_error] holds an exception. *)
Definition mail_lib (send_error : option exn) : FastMail.t unit :=
  FastMail.mk unit unit unit unit
    (ret {| FastMail.MAIL_FROM := "noreply@x.com" |})
    (fun _ => ret tt) (fun _ => ret tt) (fun _ => ret tt)
    (fun _ _ => match send_error with
                | Some e => raise e
                | None => ret tt
                end).

(** The store of the webhook runs is the log. *)
Definition log_line (msg : string) (log : list string) : list string := log ++ [msg].

Definition stripe_ok : StripeService.t (list string) :=
  StripeService.mk (list string) (fun _ _ => ret [("status", "success")]).
Definition stripe_raising (e : exn) : StripeService.t (list string) :=
  StripeService.mk (list string) (fun _ _ => raise e).

End MoreFixtures.

(** * Properties *)

(** ** The handlers, over any service *)
Section HandlerFacts.
Context {S : Type}.
Variable svc : AuthService.t S.

Lemma register_returns d s u s' :
  AuthService.create_user_with_verification svc d s = (Ok u, s') ->
  Auth.register svc d s = (Ok (UserBody u), s').
Proof. intros H. unfold Auth.register, try_except, bind. now rewrite H. Qed.

Lemma register_raises d s e s' :
  AuthService.create_user_with_verification svc d s = (Raise e, s') ->
  Auth.register svc d s =
    (Raise (match e with
            | WeakPasswordError _ => HTTPException 400 weak_password_detail
            | _ => e
            end), s').
Proof.
  intros H. unfold Auth.register, try_except, bind. rewrite H.
  now destruct e.
Qed.

(** X1.  [register] answers 400 exactly when the service raised
    [WeakPasswordError] or an HTTP 400 of its own. *)
Lemma register_status_400_iff d s :
  status (respond (fst (Auth.register svc d s))) = 400%Z <->
  (exists m s', AuthService.create_user_with_verification svc d s
                = (Raise (WeakPasswordError m), s')) \/
  (exists det s', AuthService.create_user_with_verification svc d s
                  = (Raise (HTTPException 400 det), s')).
Proof.
  destruct (AuthService.create_user_with_verification svc d s) as [[u|e] s'] eqn:E.
  - rewrite (register_returns _ _ _ _ E). simpl. split; [discriminate|].
    intros [(m & s1 & H)|(m & s1 & H)]; discriminate.
  - rewrite (register_raises _ _ _ _ E). split.
    + destruct e; simpl; try discriminate; intros Hs.
      * left. eauto.
      * right. subst. eauto.
    + intros [(m & s1 & H)|(m & s1 & H)]; inversion H; subst; reflexivity.
Qed.

Lemma change_password_returns pd cu s s' :
  AuthService.update_password svc (id cu) (current_password pd) (new_password pd) s
    = (Ok tt, s') ->
  Auth.change_password svc pd cu s
    = (Ok (DictBody [("detail", "Password updated successfully")]), s').
Proof. intros H. unfold Auth.change_password, try_except, bind. now rewrite H. Qed.

Lemma change_password_raises pd cu s e s' :
  AuthService.update_password svc (id cu) (current_password pd) (new_password pd) s
    = (Raise e, s') ->
  Auth.change_password svc pd cu s =
    (Raise (match e with
            | IncorrectPasswordError _ => HTTPException 401 "Current password is incorrect"
            | ValueError m => HTTPException 400 m
            | WeakPasswordError _ => HTTPException 400 weak_password_detail
            | _ => e
            end), s').
Proof.
  intros H. unfold Auth.change_password, try_except, bind. rewrite H.
  now destruct e.
Qed.

Lemma verify_email_returns t s s' :
  AuthService.verify_email svc t s = (Ok tt, s') ->
  Auth.verify_email svc t s
    = (Ok (DictBody [("detail", "Email verified successfully")]), s').
Proof. intros H. unfold Auth.verify_email, try_except, bind. now rewrite H. Qed.

Lemma verify_email_raises t s e s' :
  AuthService.verify_email svc t s = (Raise e, s') ->
  Auth.verify_email svc t s =
    (Raise (match e with
            | InvalidTokenError _ =>
                HTTPException 400 "Invalid or expired verification token"
            | _ => e
            end), s').
Proof.
  intros H. unfold Auth.verify_email, try_except, bind. rewrite H.
  now destruct e.
Qed.

Lemma forgot_password_returns em s s' :
  AuthService.send_password_reset svc em s = (Ok tt, s') ->
  Auth.forgot_password svc em s
    = (Ok (DictBody [("detail", "Password reset email sent")]), s').
Proof. intros H. unfold Auth.forgot_password, try_except, bind. now rewrite H. Qed.

Lemma forgot_password_raises em s e s' :
  AuthService.send_password_reset svc em s = (Raise e, s') ->
  Auth.forgot_password svc em s =
    (match e with
     | UserNotFoundError _ => Ok (DictBody [("detail", "Password reset email sent")])
     | _ => Raise e
     end, s').
Proof.
  intros H. unfold Auth.forgot_password, try_except, bind. rewrite H.
  now destruct e.
Qed.

Lemma reset_password_returns t p s s' :
  AuthService.reset_password svc t p s = (Ok tt, s') ->
  Auth.reset_password svc t p s
    = (Ok (DictBody [("detail", "Password reset successfully")]), s').
Proof. intros H. unfold Auth.reset_password, try_except, bind. now rewrite H. Qed.

Lemma reset_password_raises t p s e s' :
  AuthService.reset_password svc t p s = (Raise e, s') ->
  Auth.reset_password svc t p s =
    (Raise (match e with
            | InvalidTokenError _ => HTTPException 400 "Invalid or expired reset token"
            | WeakPasswordError _ => HTTPException 400 weak_password_detail
            | _ => e
            end), s').
Proof.
  intros H. unfold Auth.reset_password, try_except, bind. rewrite H.
  now destruct e.
Qed.

Lemma login_none cat form s s' :
  AuthService.authenticate_user svc (username form) (password form) s = (Ok None, s') ->
  Auth.login cat svc form s
    = (Raise (HTTPException 401 "Incorrect email or password"), s').
Proof. intros H. unfold Auth.login, bind. now rewrite H. Qed.

Lemma login_some cat form s u s' :
  AuthService.authenticate_user svc (username form) (password form) s
    = (Ok (Some u), s') ->
  Auth.login cat svc form s
    = (Ok (DictBody [("access_token", cat [("sub", _id u)]);
                     ("token_type", "bearer")]), s').
Proof. intros H. unfold Auth.login, bind. now rewrite H. Qed.
End HandlerFacts.

Section ResendFacts.
Context {S : Type}.
Variable svc : AuthService.t S.

(** The handler's own comparison, after its normalisation of a naive
    value, never raises and agrees with [too_soon]. *)
Lemma normalized_difference now ls :
  datetime_sub (datetime_now now timezone_utc)
    (match tzinfo ls with
     | None => replace_tzinfo ls timezone_utc
     | Some _ => ls
     end) = Ok (now - utc_instant ls)%Z.
Proof.
  unfold datetime_sub, datetime_now, timezone_utc, replace_tzinfo, utc_instant.
  destruct ls as [w [off|]]; simpl; f_equal; lia.
Qed.

(** The whole handler as a case analysis on what the service does. *)
Lemma resend_verification_cases now em s :
  Auth.resend_verification svc now em s =
  match AuthService.get_last_verification_sent svc em s with
  | (Raise e, s1) => (Raise (resend_translation e), s1)
  | (Ok last_sent, s1) =>
      if too_soon now last_sent then
        (Raise (HTTPException 429
           "Please wait 2 minutes before requesting another verification email"), s1)
      else
        match AuthService.resend_verification svc em s1 with
        | (Ok _, s2) => (Ok (DictBody [("detail", "Verification email resent")]), s2)
        | (Raise e, s2) => (Raise (resend_translation e), s2)
        end
  end.
Proof.
  unfold Auth.resend_verification, try_except, bind.
  destruct (AuthService.get_last_verification_sent svc em s) as [[o|e] s1].
  - destruct o as [ls|]; cbv beta iota zeta.
    + unfold lift. rewrite normalized_difference. fold two_minutes.
      unfold too_soon.
      destruct (now - utc_instant ls <? two_minutes)%Z; simpl.
      * reflexivity.
      * destruct (AuthService.resend_verification svc em s1) as [[[]|e] s2];
          [reflexivity | now destruct e].
    + simpl.
      destruct (AuthService.resend_verification svc em s1) as [[[]|e] s2];
        [reflexivity | now destruct e].
  - now destruct e.
Qed.
End ResendFacts.

(** ** The password policy *)
Section PolicyFacts.
Import PasswordPolicy.

Lemma has_letter_get p :
  has_letter p = true <->
  exists i c, String.get i p = Some c /\ is_letter c = true.
Proof.
  induction p as [|a p IH]; simpl.
  - split; [discriminate | intros (i & c & H & _); discriminate].
  - rewrite orb_true_iff, IH. split.
    + intros [Ha | (i & c & Hg & Hc)].
      * exists 0%nat, a. auto.
      * exists (Datatypes.S i), c. auto.
    + intros (i & c & Hg & Hc). destruct i as [|i].
      * left. now inversion Hg.
      * right. eauto.
Qed.

Lemma has_digit_get p :
  has_digit p = true <->
  exists i c, String.get i p = Some c /\ is_digit c = true.
Proof.
  induction p as [|a p IH]; simpl.
  - split; [discriminate | intros (i & c & H & _); discriminate].
  - rewrite orb_true_iff, IH. split.
    + intros [Ha | (i & c & Hg & Hc)].
      * exists 0%nat, a. auto.
      * exists (Datatypes.S i), c. auto.
    + intros (i & c & Hg & Hc). destruct i as [|i].
      * left. now inversion Hg.
      * right. eauto.
Qed.

Lemma strength_ok_iff p :
  strength_ok p = true <->
  (8 <= String.length p)%nat /\
  (exists i c, String.get i p = Some c /\ is_letter c = true) /\
  (exists i c, String.get i p = Some c /\ is_digit c = true).
Proof.
  unfold strength_ok.
  rewrite !andb_true_iff, Nat.leb_le, has_letter_get, has_digit_get.
  tauto.
Qed.

Example strength_abc12345 : strength_ok "abc12345" = true.
Proof. reflexivity. Qed.
Example strength_short : strength_ok "abc1234" = false.
Proof. reflexivity. Qed.
Example strength_no_digit : strength_ok "abcdefgh" = false.
Proof. reflexivity. Qed.
Example strength_no_letter : strength_ok "12345678" = false.
Proof. reflexivity. Qed.
End PolicyFacts.

(** ** The handlers over the Auth Service *)
Section ServiceFacts.
Import PasswordPolicy Service.
Variable create_access_token : list (string * string) -> string.
Variable get_password_hash : string -> string.
Variable verify_password : string -> string -> bool.
Variable stamp : Z -> datetime.

Local Abbreviation svc := (Service.auth_service get_password_hash verify_password stamp).
Local Abbreviation create_user :=
  (Service.create_user_with_verification get_password_hash stamp).
Local Abbreviation update_pw := (Service.update_password get_password_hash verify_password).
Local Abbreviation reset_pw := (Service.reset_password get_password_hash).
Local Abbreviation authenticate := (Service.authenticate_user verify_password).

Lemma create_user_weak_iff env d st :
  (exists m st', create_user env d st = (Raise (WeakPasswordError m), st')) <->
  strength_ok (uc_password d) = false.
Proof.
  unfold Service.create_user_with_verification.
  destruct (strength_ok (uc_password d)); simpl.
  - split; [|discriminate]. intros (m & st' & H).
    destruct (find_user_by_email _ _); discriminate.
  - split; eauto.
Qed.

Lemma update_password_weak_iff uid cur new st :
  (exists m st', update_pw uid cur new st = (Raise (WeakPasswordError m), st')) <->
  (exists u, find_user_by_id uid (users st) = Some u /\
             verify_password cur (hashed_password u) = true /\
             new <> cur /\ strength_ok new = false).
Proof.
  unfold Service.update_password.
  destruct (find_user_by_id uid (users st)) as [u|].
  - destruct (verify_password cur (hashed_password u)) eqn:Hv; simpl.
    + destruct (String.eqb_spec new cur) as [Heq|Hne].
      * split; [intros (m & st' & H); discriminate|].
        intros (u' & _ & _ & Hn & _). contradiction.
      * destruct (strength_ok new); simpl.
        -- split; [intros (m & st' & H); discriminate|].
           intros (u' & _ & _ & _ & Hs). discriminate.
        -- split; [|eauto]. intros _. exists u. auto.
    + split; [intros (m & st' & H); discriminate|].
      intros (u' & Hu & Hv' & _). inversion Hu; subst. congruence.
  - split; [intros (m & st' & H); discriminate|].
    intros (u' & Hu & _). discriminate.
Qed.

Lemma reset_password_weak_iff env t new st :
  (exists m st', reset_pw env t new st = (Raise (WeakPasswordError m), st')) <->
  (exists tok, tokens st !! t = Some tok /\
               token_valid PasswordReset (now env) tok = true /\
               strength_ok new = false).
Proof.
  unfold Service.reset_password.
  destruct (tokens st !! t) as [tok|].
  - destruct (token_valid PasswordReset (now env) tok) eqn:Hv.
    + destruct (strength_ok new); simpl.
      * split; [intros (m & st' & H); discriminate|].
        intros (tok' & _ & _ & Hs). discriminate.
      * split; [|eauto]. intros _. exists tok. auto.
    + split; [intros (m & st' & H); discriminate|].
      intros (tok' & Ht & Hv' & _). inversion Ht; subst. congruence.
  - split; [intros (m & st' & H); discriminate|].
    intros (tok' & Ht & _). discriminate.
Qed.

(** C2.  [strength_ok p] holds exactly when [p] has at least 8 characters,
    a letter and a digit, and registration, password change and password
    reset raise [WeakPasswordError] exactly when they reach their strength
    check and this one predicate rejects the password. *)
Theorem strength_ok_shared_policy :
  (forall p,
      strength_ok p = true <->
      (8 <= String.length p)%nat /\
      (exists i c, String.get i p = Some c /\ is_letter c = true) /\
      (exists i c, String.get i p = Some c /\ is_digit c = true)) /\
  (forall env d st,
      (exists m st', create_user env d st = (Raise (WeakPasswordError m), st')) <->
      strength_ok (uc_password d) = false) /\
  (forall uid cur new st,
      (exists m st', update_pw uid cur new st = (Raise (WeakPasswordError m), st')) <->
      (exists u, find_user_by_id uid (users st) = Some u /\
                 verify_password cur (hashed_password u) = true /\
                 new <> cur /\ strength_ok new = false)) /\
  (forall env t new st,
      (exists m st', reset_pw env t new st = (Raise (WeakPasswordError m), st')) <->
      (exists tok, tokens st !! t = Some tok /\
                   token_valid PasswordReset (now env) tok = true /\
                   strength_ok new = false)).
Proof.
  split; [exact strength_ok_iff|].
  split; [exact create_user_weak_iff|].
  split; [exact update_password_weak_iff | exact reset_password_weak_iff].
Qed.


(** What [send_password_reset] can do: succeed for a registered email,
    raise [UserNotFoundError] otherwise. *)
Lemma send_password_reset_outcomes env em st :
  match find_user_by_email (normalize_email em) (users st) with
  | Some _ => exists st', Service.send_password_reset env em st = (Ok tt, st')
  | None => exists m,
      Service.send_password_reset env em st = (Raise (UserNotFoundError m), st)
  end.
Proof.
  unfold Service.send_password_reset.
  destruct (find_user_by_email _ _); eauto.
Qed.

Lemma forgot_password_response env em st :
  respond (fst (Auth.forgot_password (svc env) em st))
  = mk_http 200 (DictBody [("detail", "Password reset email sent")]).
Proof.
  pose proof (send_password_reset_outcomes env em st) as H.
  destruct (find_user_by_email _ _).
  - destruct H as [st' H].
    now rewrite (forgot_password_returns (svc env) em st st' H).
  - destruct H as [m H].
    now rewrite (forgot_password_raises (svc env) em st _ st H).
Qed.

(** C4.  For every email, [forgot_password] answers 200 with the one
    generic body; a missing user makes [send_password_reset] raise
    [UserNotFoundError], which the handler turns into that same answer, so
    the response is the same for any two stores, whether or not they hold
    a user with this email. *)
Theorem forgot_password_hides_existence env em st :
  respond (fst (Auth.forgot_password (svc env) em st))
    = mk_http 200 (DictBody [("detail", "Password reset email sent")]) /\
  match find_user_by_email (normalize_email em) (users st) with
  | Some _ => True
  | None =>
      (exists m, Service.send_password_reset env em st
                 = (Raise (UserNotFoundError m), st)) /\
      Auth.forgot_password (svc env) em st
        = (Ok (DictBody [("detail", "Password reset email sent")]), st)
  end /\
  (forall env' st',
      respond (fst (Auth.forgot_password (svc env') em st'))
      = respond (fst (Auth.forgot_password (svc env) em st))).
Proof.
  split; [apply forgot_password_response|]. split.
  - pose proof (send_password_reset_outcomes env em st) as H.
    destruct (find_user_by_email _ _); [exact I|].
    destruct H as [m H]. split; [eauto|].
    now rewrite (forgot_password_raises (svc env) em st _ st H).
  - intros env' st'. now rewrite !forgot_password_response.
Qed.

(** C6.  [authenticate_user] returns none when no user has the normalized
    email and when the password does not match the stored hash; in both
    cases [login] answers 401.  When it returns a user, the response is a
    200 whose body holds an [access_token] and the [token_type] "bearer". *)
Theorem login_unauthorized_or_bearer env form st :
  (find_user_by_email (normalize_email (username form)) (users st) = None ->
   authenticate (username form) (password form) st = (Ok None, st) /\
   respond (fst (Auth.login create_access_token (svc env) form st))
     = mk_http 401 (DictBody [("detail", "Incorrect email or password")])) /\
  (forall u,
      find_user_by_email (normalize_email (username form)) (users st) = Some u ->
      verify_password (password form) (hashed_password u) = false ->
      authenticate (username form) (password form) st = (Ok None, st) /\
      respond (fst (Auth.login create_access_token (svc env) form st))
        = mk_http 401 (DictBody [("detail", "Incorrect email or password")])) /\
  (forall u st',
      authenticate (username form) (password form) st = (Ok (Some u), st') ->
      exists kv tok,
        respond (fst (Auth.login create_access_token (svc env) form st))
          = mk_http 200 (DictBody kv) /\
        dict_get "access_token" kv = Some tok /\
        dict_get "token_type" kv = Some "bearer").
Proof.
  split; [|split].
  - intros Hn.
    assert (Ha : authenticate (username form) (password form) st = (Ok None, st)).
    { unfold Service.authenticate_user. now rewrite Hn. }
    split; [exact Ha|].
    now rewrite (login_none (svc env) create_access_token form st st Ha).
  - intros u Hu Hv.
    assert (Ha : authenticate (username form) (password form) st = (Ok None, st)).
    { unfold Service.authenticate_user. now rewrite Hu, Hv. }
    split; [exact Ha|].
    now rewrite (login_none (svc env) create_access_token form st st Ha).
  - intros u st' Ha.
    rewrite (login_some (svc env) create_access_token form st u st' Ha).
    eexists _, _. split; [reflexivity|]. split; reflexivity.
Qed.


End ServiceFacts.

(** ** What the handlers keep of the store *)
Section Preservation.
Context {S A : Type}.
Variable P : S -> Prop.

Lemma preserves_ret (a : A) : preserves P (ret a : M S A).
Proof. intros s r s' H Hs. inversion H; subst. exact Hs. Qed.

Lemma preserves_raise e : preserves P (raise e : M S A).
Proof. intros s r s' H Hs. inversion H; subst. exact Hs. Qed.

Lemma preserves_lift (x : res A) : preserves P (lift x : M S A).
Proof. intros s r s' H Hs. inversion H; subst. exact Hs. Qed.

Lemma preserves_bind {B} (m : M S B) (k : B -> M S A) :
  preserves P m -> (forall b, preserves P (k b)) -> preserves P (bind m k).
Proof.
  intros Hm Hk s r s' H Hs. unfold bind in H.
  destruct (m s) as [[b|e] s1] eqn:E.
  - eapply Hk; [exact H|]. eapply Hm; eauto.
  - inversion H; subst. eapply Hm; eauto.
Qed.

Lemma preserves_try_except (m : M S A) (h : exn -> M S A) :
  preserves P m -> (forall e, preserves P (h e)) -> preserves P (try_except m h).
Proof.
  intros Hm Hh s r s' H Hs. unfold try_except in H.
  destruct (m s) as [[a|e] s1] eqn:E.
  - inversion H; subst. eapply Hm; eauto.
  - eapply Hh; [exact H|]. eapply Hm; eauto.
Qed.
End Preservation.

Lemma route_preserves {S : Type} (P : S -> Prop) cat (a : AuthService.t S) now r :
  service_preserves P a -> preserves P (route cat a now r).
Proof.
  intros (Hc & Ha & Hu & Hv & Hg & Hr & Hs & Hp).
  destruct r; simpl.
  - apply preserves_try_except.
    + apply preserves_bind; [apply Hc | intros; apply preserves_ret].
    + intros []; apply preserves_raise.
  - apply preserves_bind; [apply Ha|].
    intros [u|]; [apply preserves_ret | apply preserves_raise].
  - apply preserves_try_except.
    + apply preserves_bind; [apply Hu | intros; apply preserves_ret].
    + intros []; apply preserves_raise.
  - apply preserves_try_except.
    + apply preserves_bind; [apply Hv | intros; apply preserves_ret].
    + intros []; apply preserves_raise.
  - apply preserves_try_except.
    + apply preserves_bind; [apply Hg|]. intros o.
      apply preserves_bind.
      * destruct o as [ls|]; [|apply preserves_ret].
        apply preserves_bind; [apply preserves_lift|].
        intros d. destruct (d <? timedelta_minutes 2)%Z;
          [apply preserves_raise | apply preserves_ret].
      * intros _. apply preserves_bind; [apply Hr | intros; apply preserves_ret].
    + intros []; apply preserves_raise.
  - apply preserves_try_except.
    + apply preserves_bind; [apply Hs | intros; apply preserves_ret].
    + intros []; first [apply preserves_raise | apply preserves_ret].
  - apply preserves_try_except.
    + apply preserves_bind; [apply Hp | intros; apply preserves_ret].
    + intros []; apply preserves_raise.
Qed.

Section ServiceFacts2.
Import PasswordPolicy Service.
Variable create_access_token : list (string * string) -> string.
Variable get_password_hash : string -> string.
Variable verify_password : string -> string -> bool.
Variable stamp : Z -> datetime.

Local Abbreviation svc := (Service.auth_service get_password_hash verify_password stamp).

Lemma consumed_insert_other t t' tok st us lg ob :
  t' <> t -> consumed_in t st ->
  consumed_in t (mk_Store us (<[t' := tok]> (tokens st)) lg ob).
Proof.
  intros Hne (k & Hk & Hc). exists k. simpl.
  rewrite lookup_insert_ne by exact Hne. auto.
Qed.

Lemma consumed_insert_consume t t' tok st us lg ob :
  tokens st !! t' = Some tok -> consumed_in t st ->
  consumed_in t (mk_Store us (<[t' := consume tok]> (tokens st)) lg ob).
Proof.
  intros Ht (k & Hk & Hc). unfold consumed_in. simpl.
  destruct (decide (t' = t)) as [->|Hne].
  - rewrite lookup_insert_eq. eauto.
  - rewrite lookup_insert_ne by exact Hne. eauto.
Qed.

(** No method of the service turns a consumed token back, as long as the
    value of a newly issued token is not that of the consumed one. *)
Lemma service_keeps_consumed t env :
  new_token env <> t -> service_preserves (consumed_in t) (svc env).
Proof.
  intros Hne. unfold service_preserves, preserves. simpl.
  repeat split.
  - intros d s r s' H Hs. unfold Service.create_user_with_verification in H.
    destruct (negb _); [inversion H; subst; exact Hs|].
    destruct (find_user_by_email _ _); inversion H; subst; [exact Hs|].
    now apply consumed_insert_other.
  - intros e p s r s' H Hs. unfold Service.authenticate_user in H.
    destruct (find_user_by_email _ _); [destruct (verify_password _ _)|];
      inversion H; subst; exact Hs.
  - intros i c n s r s' H Hs. unfold Service.update_password in H.
    destruct (find_user_by_id _ _); [|inversion H; subst; exact Hs].
    destruct (negb (verify_password _ _)); [inversion H; subst; exact Hs|].
    destruct (String.eqb _ _); [inversion H; subst; exact Hs|].
    destruct (negb _); inversion H; subst; [exact Hs|].
    destruct Hs as (k & Hk & Hc). exists k. auto.
  - intros t' s r s' H Hs. unfold Service.verify_email in H.
    destruct (tokens s !! t') as [tok|] eqn:Ht; [|inversion H; subst; exact Hs].
    destruct (token_valid _ _ _); inversion H; subst; [|exact Hs].
    now apply consumed_insert_consume.
  - intros e s r s' H Hs. unfold Service.get_last_verification_sent in H.
    inversion H; subst; exact Hs.
  - intros e s r s' H Hs. unfold Service.resend_verification in H.
    destruct (find_user_by_email _ _); inversion H; subst; [|exact Hs].
    now apply consumed_insert_other.
  - intros e s r s' H Hs. unfold Service.send_password_reset in H.
    destruct (find_user_by_email _ _); inversion H; subst; [|exact Hs].
    now apply consumed_insert_other.
  - intros t' p s r s' H Hs. unfold Service.reset_password in H.
    destruct (tokens s !! t') as [tok|] eqn:Ht; [|inversion H; subst; exact Hs].
    destruct (token_valid _ _ _); [|inversion H; subst; exact Hs].
    destruct (negb _); inversion H; subst; [exact Hs|].
    now apply consumed_insert_consume.
Qed.

Lemma serve_keeps_consumed t env r st :
  new_token env <> t -> consumed_in t st ->
  consumed_in t
    (snd (serve create_access_token get_password_hash verify_password stamp env r st)).
Proof.
  intros Hne Hs. unfold serve.
  destruct (route create_access_token (svc env) (now env) r st) as [o st'] eqn:E.
  simpl. eapply (route_preserves (consumed_in t)); eauto.
  now apply service_keeps_consumed.
Qed.

Lemma serve_all_keeps_consumed t reqs : forall st,
  Forall (fun er => new_token (fst er) <> t) reqs ->
  consumed_in t st ->
  consumed_in t
    (serve_all create_access_token get_password_hash verify_password stamp reqs st).
Proof.
  induction reqs as [|[env r] reqs IH]; intros st Hf Hs; simpl; [exact Hs|].
  inversion Hf as [|? ? Hne Hrest]; subst. simpl in Hne.
  apply IH; [exact Hrest|]. now apply serve_keeps_consumed.
Qed.

Lemma verify_email_consumes env t st st' :
  Service.verify_email env t st = (Ok tt, st') -> consumed_in t st'.
Proof.
  unfold Service.verify_email. intros H.
  destruct (tokens st !! t) as [tok|]; [|discriminate].
  destruct (token_valid _ _ _); inversion H; subst.
  exists (consume tok). simpl. now rewrite lookup_insert_eq.
Qed.

Lemma verify_email_consumed_fails env t st :
  consumed_in t st ->
  Service.verify_email env t st
    = (Raise (InvalidTokenError "Invalid or expired token"), st).
Proof.
  intros (tok & Ht & Hc). unfold Service.verify_email, token_valid.
  rewrite Ht, Hc. simpl. now rewrite andb_false_r.
Qed.

(** C3.  A successful [verify_email t] leaves [t] consumed, and whatever
    requests are served afterwards -- none of them issuing a token with the
    value of [t] again -- a later [verify_email t] fails with
    [InvalidTokenError], which the handler of [GET /auth/verify/{token}]
    answers with 400. *)
Theorem verify_email_single_use env t st st' reqs env2 :
  Service.verify_email env t st = (Ok tt, st') ->
  Forall (fun er => new_token (fst er) <> t) reqs ->
  let st2 := serve_all create_access_token get_password_hash verify_password
               stamp reqs st' in
  consumed_in t st' /\
  (exists m, Service.verify_email env2 t st2 = (Raise (InvalidTokenError m), st2)) /\
  respond (fst (Auth.verify_email (svc env2) t st2))
    = mk_http 400 (DictBody [("detail", "Invalid or expired verification token")]).
Proof.
  intros Hok Hf st2.
  pose proof (verify_email_consumes env t st st' Hok) as Hc.
  pose proof (serve_all_keeps_consumed t reqs st' Hf Hc) as Hc2.
  fold st2 in Hc2.
  pose proof (verify_email_consumed_fails env2 t st2 Hc2) as Hfail.
  split; [exact Hc|]. split; [eauto|].
  now rewrite (verify_email_raises (svc env2) t st2 _ st2 Hfail).
Qed.

Lemma resend_verification_succeeds env em st u :
  find_user_by_email (normalize_email em) (users st) = Some u ->
  exists st',
    Service.resend_verification stamp env em st = (Ok tt, st') /\
    verification_log st' !! normalize_email em = Some (stamp (now env)).
Proof.
  intros Hu. unfold Service.resend_verification. rewrite Hu.
  eexists. split; [reflexivity|]. simpl. now rewrite lookup_insert_eq.
Qed.

(** C5.  For a registered user: a previous send less than 2 minutes before
    [now] makes [resend_verification] answer 429; with no previous send, or
    one at least 2 minutes old, the resend succeeds and the last-sent
    timestamp then denotes [now]; a stored timestamp without time zone is
    compared as a UTC time. *)
Theorem resend_verification_rate_limit env em st u :
  (forall t, utc_instant (stamp t) = t) ->
  find_user_by_email (normalize_email em) (users st) = Some u ->
  let last := verification_log st !! normalize_email em in
  let r := Auth.resend_verification (svc env) (now env) em st in
  (forall ls, last = Some ls -> (now env - utc_instant ls < two_minutes)%Z ->
      r = (Raise (HTTPException 429
             "Please wait 2 minutes before requesting another verification email"),
           st)) /\
  ((last = None \/
    exists ls, last = Some ls /\ (two_minutes <= now env - utc_instant ls)%Z) ->
   fst r = Ok (DictBody [("detail", "Verification email resent")]) /\
   exists ls', verification_log (snd r) !! normalize_email em = Some ls' /\
               utc_instant ls' = now env) /\
  (forall ls, last = Some ls -> tzinfo ls = None ->
      (fst r = Raise (HTTPException 429
                 "Please wait 2 minutes before requesting another verification email")
       <-> (now env - wall ls < two_minutes)%Z)).
Proof.
  intros Hstamp Hu last r.
  destruct (resend_verification_succeeds env em st u Hu) as (st' & Hre & Hlog).
  assert (Hcases :
    r = if too_soon (now env) last
        then (Raise (HTTPException 429
                "Please wait 2 minutes before requesting another verification email"),
              st)
        else (Ok (DictBody [("detail", "Verification email resent")]), st')).
  { unfold r. rewrite resend_verification_cases. simpl.
    fold last. destruct (too_soon (now env) last); [reflexivity|].
    now rewrite Hre. }
  split; [|split].
  - intros ls Hl Hlt. rewrite Hcases, Hl. simpl.
    apply Z.ltb_lt in Hlt. now rewrite Hlt.
  - intros Hold.
    assert (Hts : too_soon (now env) last = false).
    { destruct Hold as [->|(ls & -> & Hge)]; [reflexivity|].
      simpl. apply Z.ltb_ge. exact Hge. }
    rewrite Hcases, Hts. simpl. split; [reflexivity|].
    exists (stamp (now env)). split; [exact Hlog | apply Hstamp].
  - intros ls Hl Hnaive. rewrite Hcases, Hl. simpl.
    unfold utc_instant. rewrite Hnaive.
    destruct (now env - wall ls <? two_minutes)%Z eqn:E; simpl.
    + apply Z.ltb_lt in E. split; auto.
    + apply Z.ltb_ge in E. split; [discriminate | lia].
Qed.
End ServiceFacts2.

(** ** The handlers over any service, continued *)

(** C10.  When [get_last_verification_sent] returns a timestamp less than 2
    minutes old, [resend_verification] raises the 429 and the store is the
    one in which that look-up returned: the service's [resend_verification]
    is not run, whatever it would do. *)
Theorem resend_rate_limited_skips_resend {S : Type} (a : AuthService.t S)
    now em s ls s1 :
  AuthService.get_last_verification_sent a em s = (Ok (Some ls), s1) ->
  (now - utc_instant ls < two_minutes)%Z ->
  Auth.resend_verification a now em s
  = (Raise (HTTPException 429
       "Please wait 2 minutes before requesting another verification email"), s1).
Proof.
  intros Hg Hlt. rewrite resend_verification_cases, Hg. simpl.
  apply Z.ltb_lt in Hlt. now rewrite Hlt.
Qed.

(** C8, as the code has it.  For every successful login the access token is
    issued over claims whose subject is the text of the [_id] of the user
    document that [authenticate_user] returned. *)
Theorem login_subject_is_document_id {S : Type} cat (a : AuthService.t S)
    form s u s' :
  AuthService.authenticate_user a (username form) (password form) s
    = (Ok (Some u), s') ->
  exists claims,
    Auth.login cat a form s
      = (Ok (DictBody [("access_token", cat claims); ("token_type", "bearer")]), s') /\
    dict_get "sub" claims = Some (_id u).
Proof.
  intros Ha. rewrite (login_some a cat form s u s' Ha).
  exists [("sub", _id u)]. split; reflexivity.
Qed.

Lemma route_error_answer {S : Type} cat (a : AuthService.t S) now r s e s' :
  raises_in a now r s e s' ->
  respond (fst (route cat a now r s)) = error_answer r e.
Proof.
  destruct r; simpl; intros H.
  - rewrite (register_raises a _ _ _ _ H). now destruct e.
  - unfold Auth.login, bind. rewrite H. now destruct e.
  - rewrite (change_password_raises a _ _ _ _ _ H). now destruct e.
  - rewrite (verify_email_raises a _ _ _ _ H). now destruct e.
  - rewrite resend_verification_cases.
    destruct H as [H | (o & s1 & Hg & Hts & H)].
    + rewrite H. now destruct e.
    + rewrite Hg, Hts, H. now destruct e.
  - rewrite (forgot_password_raises a _ _ _ _ H). now destruct e.
  - rewrite (reset_password_raises a _ _ _ _ _ H). now destruct e.
Qed.

(** C9, as the code has it.  The answer to a request whose service call
    raises a domain error is the entry of the error table; for
    [WeakPasswordError], [IncorrectPasswordError], [InvalidTokenError] and
    [UserNotFoundError] that entry does not depend on the text of the
    exception, while [change_password] answers a [ValueError] with 400 and
    the exception's own text as detail. *)
Theorem domain_error_answers {S : Type} cat (a : AuthService.t S) now r s e s' :
  raises_in a now r s e s' ->
  respond (fst (route cat a now r s)) = error_answer r e /\
  (forall k m1 m2,
      In k [WeakPasswordError; IncorrectPasswordError; InvalidTokenError;
            UserNotFoundError] ->
      error_answer r (k m1) = error_answer r (k m2)) /\
  (forall pd cu m,
      r = ChangePassword pd cu -> e = ValueError m ->
      respond (fst (route cat a now r s)) = detail_response 400 m).
Proof.
  intros H. pose proof (route_error_answer cat a now r s e s' H) as Hr.
  split; [exact Hr|]. split.
  - intros k m1 m2 Hk. simpl in Hk.
    destruct Hk as [<-|[<-|[<-|[<-|[]]]]]; destruct r; reflexivity.
  - intros pd cu m -> ->. exact Hr.
Qed.

(** ** The claims on concrete requests *)
Section Concrete.
Import Fixtures.


(** C3: the pending token is verified, a resend and a login follow, and
    the token is presented again. *)
Lemma verify_email_single_use_witness :
  let st' := snd (Service.verify_email env0 "tok-0" store_pending) in
  let st2 := serve_all claims_text toy_hash toy_verify naive_stamp
               [(env0, ResendVerification "a@x.com");
                (env_later, Login {| username := "a@x.com"; password := "abc12345" |})]
               st' in
  respond (fst (Auth.verify_email (svc env_later) "tok-0" st2))
  = mk_http 400 (DictBody [("detail", "Invalid or expired verification token")]).
Proof.
  intros st' st2.
  refine (proj2 (proj2 (verify_email_single_use claims_text toy_hash toy_verify
                          naive_stamp env0 "tok-0" store_pending st' _ env_later
                          _ _))).
  - reflexivity.
  - repeat constructor; simpl; discriminate.
Defined.

(** C5: one second after the last send, and 200 seconds after it. *)
Lemma resend_verification_rate_limit_witness :
  Auth.resend_verification (svc env0) (Service.now env0) "A@x.com" store_pending
    = (Raise (HTTPException 429
         "Please wait 2 minutes before requesting another verification email"),
       store_pending) /\
  fst (Auth.resend_verification (svc env_later) (Service.now env_later) "A@x.com"
         store_pending)
    = Ok (DictBody [("detail", "Verification email resent")]).
Proof.
  split.
  - refine (proj1 (resend_verification_rate_limit toy_hash toy_verify naive_stamp
                     env0 "A@x.com" store_pending alice _ _) (naive_stamp 0) _ _).
    + intros t. reflexivity.
    + reflexivity.
    + reflexivity.
    + vm_compute. reflexivity.
  - refine (proj1 (proj1 (proj2 (resend_verification_rate_limit toy_hash toy_verify
                     naive_stamp env_later "A@x.com" store_pending alice _ _)) _)).
    + intros t. reflexivity.
    + reflexivity.
    + right. exists (naive_stamp 0). split; [reflexivity|].
      vm_compute. discriminate.
Defined.

(** C6: an unknown email, a wrong password, and the right one. *)
Lemma login_unauthorized_or_bearer_witness :
  status (respond (fst (Auth.login claims_text (svc env0)
            {| username := "nobody@x.com"; password := "abc12345" |} store_alice)))
    = 401%Z /\
  status (respond (fst (Auth.login claims_text (svc env0)
            {| username := "a@x.com"; password := "wrong" |} store_alice)))
    = 401%Z /\
  exists kv tok,
    respond (fst (Auth.login claims_text (svc env0)
               {| username := "a@x.com"; password := "abc12345" |} store_alice))
      = mk_http 200 (DictBody kv) /\
    dict_get "access_token" kv = Some tok /\
    dict_get "token_type" kv = Some "bearer".
Proof.
  split; [|split].
  - exact (f_equal status
             (proj2 (proj1 (login_unauthorized_or_bearer claims_text toy_hash
                toy_verify naive_stamp env0
                {| username := "nobody@x.com"; password := "abc12345" |} store_alice)
                eq_refl))).
  - exact (f_equal status
             (proj2 (proj1 (proj2 (login_unauthorized_or_bearer claims_text toy_hash
                toy_verify naive_stamp env0
                {| username := "a@x.com"; password := "wrong" |} store_alice))
                alice eq_refl eq_refl))).
  - apply (proj2 (proj2 (login_unauthorized_or_bearer claims_text toy_hash
               toy_verify naive_stamp env0
               {| username := "a@x.com"; password := "abc12345" |} store_alice))
             alice store_alice).
    reflexivity.
Defined.



(** C8 as stated fails: the user with email a@x.com logs in; the token is
    issued over the subject 507f1f77bcf86cd799439011, the [_id] of the
    document, and not over the email. *)
Lemma login_subject_is_not_the_email :
  let form := {| username := "a@x.com"; password := "abc12345" |} in
  Service.authenticate_user toy_verify (username form) (password form) store_alice
    = (Ok (Some alice), store_alice) /\
  fst (Auth.login claims_text (svc env0) form store_alice)
    = Ok (DictBody [("access_token", claims_text [("sub", "507f1f77bcf86cd799439011")]);
                    ("token_type", "bearer")]) /\
  email alice = "a@x.com" /\
  fst (Auth.login claims_text (svc env0) form store_alice)
    <> Ok (DictBody [("access_token", claims_text [("sub", email alice)]);
                     ("token_type", "bearer")]).
Proof.
  intros form. split; [reflexivity|]. split; [reflexivity|].
  split; [reflexivity|]. vm_compute. discriminate.
Defined.

(** C8 amended, at the same login. *)
Lemma login_subject_is_document_id_witness :
  exists claims,
    Auth.login claims_text (svc env0)
      {| username := "a@x.com"; password := "abc12345" |} store_alice
      = (Ok (DictBody [("access_token", claims_text claims);
                       ("token_type", "bearer")]), store_alice) /\
    dict_get "sub" claims = Some "507f1f77bcf86cd799439011".
Proof.
  apply (login_subject_is_document_id claims_text (svc env0)
           {| username := "a@x.com"; password := "abc12345" |}
           store_alice alice store_alice).
  reflexivity.
Defined.

(** C9 as stated fails: the detail [change_password] sends for a
    [ValueError] is the text of the exception, so no one fixed response
    covers two such errors with different texts. *)
Lemma change_password_detail_is_exception_text :
  let pd := {| current_password := "abc12345"; new_password := "abc12345" |} in
  let cu := Service.public alice in
  ~ (exists fixed : http_response,
        forall m, respond (fst (Auth.change_password (raising (ValueError m)) pd cu tt))
                  = fixed).
Proof.
  intros pd cu [fixed H].
  pose proof (H "users.update_one: not primary") as H1.
  pose proof (H "New password must be different") as H2.
  rewrite <- H2 in H1. vm_compute in H1. discriminate.
Defined.

(** C9 amended: an unknown token, and a change to the same password. *)
Lemma domain_error_answers_witness :
  respond (fst (route claims_text (svc env0) (Service.now env0)
                  (VerifyEmail "no-such-token") store_alice))
    = detail_response 400 "Invalid or expired verification token" /\
  respond (fst (route claims_text (svc env0) (Service.now env0)
                  (ChangePassword
                     {| current_password := "abc12345"; new_password := "abc12345" |}
                     (Service.public alice)) store_alice))
    = detail_response 400 "New password must be different from current password".
Proof.
  split.
  - apply (proj1 (domain_error_answers claims_text (svc env0) (Service.now env0)
             (VerifyEmail "no-such-token") store_alice
             (InvalidTokenError "Invalid or expired token") store_alice eq_refl)).
  - apply (proj2 (proj2 (domain_error_answers claims_text (svc env0)
             (Service.now env0)
             (ChangePassword
                {| current_password := "abc12345"; new_password := "abc12345" |}
                (Service.public alice)) store_alice
             (ValueError "New password must be different from current password")
             store_alice eq_refl))
           {| current_password := "abc12345"; new_password := "abc12345" |}
           (Service.public alice) _ eq_refl eq_refl).
Defined.

(** C10: a resend one second after the last send. *)
Lemma resend_rate_limited_skips_resend_witness :
  Auth.resend_verification (svc env0) (Service.now env0) "A@x.com" store_pending
  = (Raise (HTTPException 429
       "Please wait 2 minutes before requesting another verification email"),
     store_pending).
Proof.
  apply (resend_rate_limited_skips_resend (svc env0) (Service.now env0) "A@x.com"
           store_pending (naive_stamp 0) store_pending).
  - reflexivity.
  - vm_compute. reflexivity.
Defined.

(** The scenarios of the spec, run through the handlers. *)
Example scenario_register_then_login :
  let reg := Auth.register (svc env0)
               {| uc_email := "a@x.com"; uc_password := "abc12345" |}
               (Service.mk_Store [] ∅ ∅ []) in
  status (respond (fst reg)) = 200%Z /\
  (exists tok,
      fst (Auth.login claims_text (svc env_later)
             {| username := "a@x.com"; password := "abc12345" |} (snd reg))
      = Ok (DictBody [("access_token", tok); ("token_type", "bearer")])) /\
  status (respond (fst (Auth.login claims_text (svc env_later)
            {| username := "a@x.com"; password := "wrong" |} (snd reg)))) = 401%Z.
Proof.
  intros reg. split; [reflexivity|]. split; [|reflexivity].
  eexists. vm_compute. reflexivity.
Qed.

Example scenario_forgot_password_nobody :
  respond (fst (Auth.forgot_password (svc env0) "nobody@x.com" store_alice))
  = mk_http 200 (DictBody [("detail", "Password reset email sent")]).
Proof. reflexivity. Qed.

Example scenario_resend_twice :
  let first := Auth.resend_verification (svc env0) (Service.now env0) "a@x.com"
                 store_alice in
  status (respond (fst first)) = 200%Z /\
  status (respond (fst (Auth.resend_verification (svc env0) (Service.now env0 + 1000000)
                          "a@x.com" (snd first)))) = 429%Z /\
  status (respond (fst (Auth.resend_verification (svc env_later) (Service.now env_later)
                          "a@x.com" (snd first)))) = 200%Z.
Proof. intros first. repeat split; reflexivity. Qed.
End Concrete.

(** ** Further properties of the handlers of [auth.py], over any service *)
Section MoreHandlerFacts.
Context {S : Type}.
Variable cat : list (string * string) -> string.
Variable a : AuthService.t S.

(** What each handler makes of a failed service call, as one equation. *)
Lemma route_of_failure now r s e s' :
  raises_in a now r s e s' ->
  route cat a now r s =
  (match r, e with
   | Register _, WeakPasswordError _ => Raise (HTTPException 400 weak_password_detail)
   | ChangePassword _ _, IncorrectPasswordError _ =>
       Raise (HTTPException 401 "Current password is incorrect")
   | ChangePassword _ _, ValueError m => Raise (HTTPException 400 m)
   | ChangePassword _ _, WeakPasswordError _ =>
       Raise (HTTPException 400 weak_password_detail)
   | VerifyEmail _, InvalidTokenError _ =>
       Raise (HTTPException 400 "Invalid or expired verification token")
   | ResendVerification _, UserNotFoundError _ =>
       Raise (HTTPException 404 "User not found")
   | ForgotPassword _, UserNotFoundError _ =>
       Ok (DictBody [("detail", "Password reset email sent")])
   | ResetPassword _ _, InvalidTokenError _ =>
       Raise (HTTPException 400 "Invalid or expired reset token")
   | ResetPassword _ _, WeakPasswordError _ =>
       Raise (HTTPException 400 weak_password_detail)
   | _, _ => Raise e
   end, s').
Proof.
  destruct r; simpl; intros H.
  - rewrite (register_raises a _ _ _ _ H). now destruct e.
  - unfold Auth.login, bind. now rewrite H.
  - rewrite (change_password_raises a _ _ _ _ _ H). now destruct e.
  - rewrite (verify_email_raises a _ _ _ _ H). now destruct e.
  - rewrite resend_verification_cases.
    destruct H as [H | (o & s1 & Hg & Hts & H)].
    + rewrite H. now destruct e.
    + rewrite Hg, Hts, H. now destruct e.
  - rewrite (forgot_password_raises a _ _ _ _ H). now destruct e.
  - rewrite (reset_password_raises a _ _ _ _ _ H). now destruct e.
Qed.

(** X2.  A failed service call becomes a normal return of the handler in one
    case only: [UserNotFoundError] on [forgot_password]. *)
Theorem failure_returns_only_on_forgot_password now r s e s' :
  raises_in a now r s e s' ->
  (exists b, fst (route cat a now r s) = Ok b) <->
  (exists em m, r = ForgotPassword em /\ e = UserNotFoundError m).
Proof.
  intros H. rewrite (route_of_failure now r s e s' H). split.
  - intros [b Hb]. destruct r, e; simpl in Hb; try discriminate. eauto.
  - intros (em & m & -> & ->). simpl. eauto.
Qed.

(** X3.  When a service call fails, the store is left as that call left it,
    and an exception leaving the handler is either the service's own,
    unchanged, or an [HTTPException] with status 400, 401 or 404. *)
Theorem failure_is_passed_on_or_client_error now r s e s' :
  raises_in a now r s e s' ->
  snd (route cat a now r s) = s' /\
  (forall e', fst (route cat a now r s) = Raise e' ->
              e' = e \/
              exists c d, e' = HTTPException c d /\ In c [400; 401; 404]%Z).
Proof.
  intros H. rewrite (route_of_failure now r s e s' H). split; [reflexivity|].
  intros e' He'. destruct r, e; simpl in He'; inversion He'; subst;
    first [ now left
          | right; eexists _, _; split; [reflexivity|]; simpl; tauto ].
Qed.


(** X5.  The bound of the rate limit.  With a stored last send and a resend
    that would succeed, the handler answers 429 exactly while [now] is less
    than 120 seconds past the instant the stored value denotes (wall clock
    minus offset, a naive value being UTC), and returns normally from that
    instant on; a stored instant in the future is always refused. *)
Theorem resend_verification_bound now em s ls s1 s2 :
  AuthService.get_last_verification_sent a em s = (Ok (Some ls), s1) ->
  AuthService.resend_verification a em s1 = (Ok tt, s2) ->
  let inst := match tzinfo ls with
              | None => wall ls
              | Some off => (wall ls - off)%Z
              end in
  ((now < inst + 120000000)%Z ->
   Auth.resend_verification a now em s
   = (Raise (HTTPException 429
        "Please wait 2 minutes before requesting another verification email"), s1)) /\
  ((inst + 120000000 <= now)%Z ->
   Auth.resend_verification a now em s
   = (Ok (DictBody [("detail", "Verification email resent")]), s2)) /\
  ((now < inst)%Z ->
   status (respond (fst (Auth.resend_verification a now em s))) = 429%Z).
Proof.
  intros Hg Hr inst.
  assert (Hts : too_soon now (Some ls) = (now <? inst + 120000000)%Z).
  { unfold too_soon, utc_instant, two_minutes, timedelta_minutes. fold inst.
    destruct (Z.ltb_spec (now - inst) (2 * 60 * 1000000));
      destruct (Z.ltb_spec now (inst + 120000000)); (reflexivity || lia). }
  rewrite resend_verification_cases, Hg, Hts, Hr.
  split; [|split].
  - intros Hlt. apply Z.ltb_lt in Hlt. now rewrite Hlt.
  - intros Hge. apply Z.ltb_ge in Hge. now rewrite Hge.
  - intros Hlt. assert (Hlt' : (now <? inst + 120000000)%Z = true)
      by (apply Z.ltb_lt; lia).
    now rewrite Hlt'.
Qed.
End MoreHandlerFacts.


(** ** The diagnostic routes of [auth.py] *)
Section EmailTestFacts.
Context {S : Type}.
Variable str_http : Z -> string -> string.

(** X7.  Once [EmailService()] has returned, [test_email] answers 200 or
    500 and nothing else, and 200 exactly when the connection test returned
    [True]. *)
Theorem test_email_status (new_EmailService : M S (EmailService.t S)) s es s1 :
  new_EmailService s = (Ok es, s1) ->
  let st := status (respond (fst (Auth.test_email str_http new_EmailService s))) in
  (st = 200%Z \/ st = 500%Z) /\
  (st = 200%Z <-> exists s2, EmailService.test_email_connection es s1 = (Ok true, s2)).
Proof.
  intros Hn. unfold Auth.test_email, bind, try_except. rewrite Hn.
  destruct (EmailService.test_email_connection es s1) as [[[|]|e] s2]; simpl.
  - split; [now left|]. split; eauto.
  - split; [now right|]. split; [discriminate|]. intros [s3 H]. discriminate.
  - split; [now right|]. split; [discriminate|]. intros [s3 H]. discriminate.
Qed.

(** X8.  A connection test that does not return [True] is reported as 500
    with the detail "Email test failed: " followed by the text of an
    exception: the one the test raised, or, when the test returned [False],
    the handler's own [HTTPException], which its [except Exception] clause
    catches; the detail "Email configuration test failed - check server logs
    for details" is never sent as such. *)
Theorem test_email_failure_detail (new_EmailService : M S (EmailService.t S))
    s es s1 r s2 :
  new_EmailService s = (Ok es, s1) ->
  EmailService.test_email_connection es s1 = (r, s2) ->
  r <> Ok true ->
  Auth.test_email str_http new_EmailService s =
  (Raise (HTTPException 500
     ("Email test failed: " ++
      py_str str_http
        match r with
        | Raise e => e
        | Ok _ => HTTPException 500
                    "Email configuration test failed - check server logs for details"
        end)), s2).
Proof.
  intros Hn Ht Hr. unfold Auth.test_email, bind, try_except. rewrite Hn, Ht.
  destruct r as [[|]|e]; [contradiction | reflexivity | reflexivity].
Qed.

End EmailTestFacts.

(** ** The webhook route of [main.py] *)
Section WebhookFacts.
Context {S : Type}.
Variable request_body : M S string.
Variable new_StripeService : M S (StripeService.t S).
Variable logger_error : string -> S -> S.

Lemma webhook_with_signature c rest s :
  Main.stripe_webhook_direct request_body new_StripeService logger_error
    (Some (String c rest)) s =
  match webhook_steps request_body new_StripeService (String c rest) s with
  | (Ok b, s1) => (Ok b, s1)
  | (Raise e, s1) =>
      if is_http e then (Raise e, s1)
      else (Raise (HTTPException 500 "Internal server error"),
            logger_error ("Error processing webhook: " ++ str_exn e) s1)
  end.
Proof.
  unfold Main.stripe_webhook_direct, webhook_steps, try_except.
  match goal with |- context [bind ?m ?k s] => destruct (bind m k s) as [[b|e] s1] end;
    [reflexivity | now destruct e].
Qed.

(** X10.  Without a signature header, or with an empty one, the webhook
    answers 400 "Missing Stripe signature" and does nothing else: the body
    is not read, no service is built, nothing is logged. *)
Theorem webhook_missing_signature signature s :
  signature = None \/ signature = Some "" ->
  Main.stripe_webhook_direct request_body new_StripeService logger_error signature s
  = (Raise (HTTPException 400 "Missing Stripe signature"), s).
Proof. intros [->| ->]; reflexivity. Qed.


(** X12.  When a step of the webhook raises anything but an [HTTPException],
    the answer is 500 "Internal server error" whatever the exception says;
    its text goes to the log, after "Error processing webhook: ", and
    nowhere else. *)
Theorem webhook_hides_exception_text c rest s e s1 :
  webhook_steps request_body new_StripeService (String c rest) s = (Raise e, s1) ->
  is_http e = false ->
  Main.stripe_webhook_direct request_body new_StripeService logger_error
    (Some (String c rest)) s =
  (Raise (HTTPException 500 "Internal server error"),
   logger_error ("Error processing webhook: " ++ str_exn e) s1).
Proof. intros H E. now rewrite webhook_with_signature, H, E. Qed.

(** X13.  An [HTTPException] raised by a step of the webhook leaves the
    handler as it is, and nothing is logged for it. *)
Theorem webhook_passes_http_on c rest s e s1 :
  webhook_steps request_body new_StripeService (String c rest) s = (Raise e, s1) ->
  is_http e = true ->
  Main.stripe_webhook_direct request_body new_StripeService logger_error
    (Some (String c rest)) s = (Raise e, s1).
Proof. intros H E. now rewrite webhook_with_signature, H, E. Qed.
End WebhookFacts.

(** ** More on single handlers, over any service *)

(** X14.  [forgot_password] gives one and the same answer whenever
    [send_password_reset] returns or raises [UserNotFoundError], for any
    services, emails and stores. *)
Theorem forgot_password_same_answer {S1 S2 : Type}
    (a1 : AuthService.t S1) (a2 : AuthService.t S2) em1 em2 s1 s2 :
  (exists s1', AuthService.send_password_reset a1 em1 s1 = (Ok tt, s1')) \/
  (exists m s1', AuthService.send_password_reset a1 em1 s1
                 = (Raise (UserNotFoundError m), s1')) ->
  (exists s2', AuthService.send_password_reset a2 em2 s2 = (Ok tt, s2')) \/
  (exists m s2', AuthService.send_password_reset a2 em2 s2
                 = (Raise (UserNotFoundError m), s2')) ->
  fst (Auth.forgot_password a1 em1 s1) = fst (Auth.forgot_password a2 em2 s2) /\
  respond (fst (Auth.forgot_password a1 em1 s1))
    = mk_http 200 (DictBody [("detail", "Password reset email sent")]).
Proof.
  intros H1 H2.
  assert (E1 : fst (Auth.forgot_password a1 em1 s1)
               = Ok (DictBody [("detail", "Password reset email sent")])).
  { destruct H1 as [[s' H]|(m & s' & H)].
    - now rewrite (forgot_password_returns a1 em1 s1 s' H).
    - now rewrite (forgot_password_raises a1 em1 s1 _ s' H). }
  assert (E2 : fst (Auth.forgot_password a2 em2 s2)
               = Ok (DictBody [("detail", "Password reset email sent")])).
  { destruct H2 as [[s' H]|(m & s' & H)].
    - now rewrite (forgot_password_returns a2 em2 s2 s' H).
    - now rewrite (forgot_password_raises a2 em2 s2 _ s' H). }
  rewrite E1, E2. split; reflexivity.
Qed.

(** X15.  [login] answers 401 exactly when the service returned no user or
    itself raised an HTTP 401; it has no [try], so every exception of
    [authenticate_user] leaves it unchanged. *)
Theorem login_status_401_iff {S : Type} cat (a : AuthService.t S) form s :
  (status (respond (fst (Auth.login cat a form s))) = 401%Z <->
   (exists s', AuthService.authenticate_user a (username form) (password form) s
               = (Ok None, s')) \/
   (exists d s', AuthService.authenticate_user a (username form) (password form) s
                 = (Raise (HTTPException 401 d), s'))) /\
  (forall e s', AuthService.authenticate_user a (username form) (password form) s
                = (Raise e, s') ->
                Auth.login cat a form s = (Raise e, s')).
Proof.
  split.
  - destruct (AuthService.authenticate_user a (username form) (password form) s)
      as [[[u|]|e] s'] eqn:E.
    + rewrite (login_some a cat form s u s' E). simpl. split; [discriminate|].
      intros [[s1 H]|(d & s1 & H)]; discriminate.
    + rewrite (login_none a cat form s s' E). simpl. split; [eauto | reflexivity].
    + unfold Auth.login, bind. rewrite E. split.
      * destruct e; simpl; try discriminate. intros ->. right. eauto.
      * intros [[s1 H]|(d & s1 & H)]; inversion H; subst. reflexivity.
  - intros e s' E. unfold Auth.login, bind. now rewrite E.
Qed.

(** ** The further properties on concrete requests *)
Section MoreConcrete.
Import Fixtures MoreFixtures.

Lemma failure_returns_only_on_forgot_password_witness :
  exists b, fst (route claims_text (svc env0) (Service.now env0)
                   (ForgotPassword "nobody@x.com") store_alice) = Ok b.
Proof.
  apply (proj2 (failure_returns_only_on_forgot_password claims_text (svc env0)
                  (Service.now env0) (ForgotPassword "nobody@x.com") store_alice
                  (UserNotFoundError "User not found") store_alice eq_refl)).
  exists "nobody@x.com", "User not found". split; reflexivity.
Defined.

Lemma failure_is_passed_on_or_client_error_witness :
  snd (route claims_text (svc env0) (Service.now env0)
         (ResendVerification "nobody@x.com") store_alice) = store_alice.
Proof.
  apply (proj1 (failure_is_passed_on_or_client_error claims_text (svc env0)
                  (Service.now env0) (ResendVerification "nobody@x.com") store_alice
                  (UserNotFoundError "User not found") store_alice
                  (or_intror (ex_intro _ None (ex_intro _ store_alice
                     (conj eq_refl (conj eq_refl eq_refl))))))).
Defined.


(** One second, and exactly 120 seconds, after a send logged at instant 0. *)
Lemma resend_verification_bound_witness :
  status (respond (fst (Auth.resend_verification (svc env0) 1000000 "a@x.com"
                          store_pending))) = 429%Z /\
  status (respond (fst (Auth.resend_verification (svc env0) 120000000 "a@x.com"
                          store_pending))) = 200%Z.
Proof.
  pose (s2 := snd (Service.resend_verification naive_stamp env0 "a@x.com" store_pending)).
  split.
  - rewrite (proj1 (resend_verification_bound (svc env0) 1000000 "a@x.com"
                      store_pending (naive_stamp 0) store_pending s2
                      eq_refl eq_refl)); [reflexivity|].
    vm_compute. reflexivity.
  - rewrite (proj1 (proj2 (resend_verification_bound (svc env0) 120000000 "a@x.com"
                      store_pending (naive_stamp 0) store_pending s2
                      eq_refl eq_refl))); [reflexivity|].
    vm_compute. discriminate.
Defined.


Lemma test_email_status_witness :
  status (respond (fst (Auth.test_email detail_only (ret (answering true)) tt)))
    = 200%Z.
Proof.
  apply (proj2 (test_email_status detail_only (ret (answering true)) tt
                  (answering true) tt eq_refl)).
  exists tt. reflexivity.
Defined.

Lemma test_email_failure_detail_witness :
  Auth.test_email detail_only (ret (answering false)) tt
  = (Raise (HTTPException 500
       "Email test failed: Email configuration test failed - check server logs for details"),
     tt) /\
  Auth.test_email detail_only (ret (failing (ValueError "smtp: connection refused"))) tt
  = (Raise (HTTPException 500 "Email test failed: smtp: connection refused"), tt).
Proof.
  split.
  - apply (test_email_failure_detail detail_only (ret (answering false)) tt
             (answering false) tt (Ok false) tt eq_refl eq_refl).
    discriminate.
  - apply (test_email_failure_detail detail_only
             (ret (failing (ValueError "smtp: connection refused"))) tt
             (failing (ValueError "smtp: connection refused")) tt
             (Raise (ValueError "smtp: connection refused")) tt eq_refl eq_refl).
    discriminate.
Defined.

Example test_alternative_email_runs :
  fst (Auth.test_alternative_email detail_only (mail_lib None) tt)
    = Ok (DictBody [("detail", "Alternative email test passed - Gmail SMTP is working")]) /\
  fst (Auth.test_alternative_email detail_only
         (mail_lib (Some (ValueError "535 bad credentials"))) tt)
    = Raise (HTTPException 500 "Alternative email test failed: 535 bad credentials").
Proof. split; reflexivity. Qed.

Lemma webhook_missing_signature_witness :
  Main.stripe_webhook_direct (ret "{}") (ret stripe_ok) log_line (Some "") []
  = (Raise (HTTPException 400 "Missing Stripe signature"), []).
Proof.
  apply (webhook_missing_signature (ret "{}") (ret stripe_ok) log_line (Some "") []).
  right. reflexivity.
Defined.


Lemma webhook_hides_exception_text_witness :
  Main.stripe_webhook_direct (ret "{}")
    (ret (stripe_raising (ValueError "No signatures found")))
    log_line (Some "t=1,v1=abc") []
  = (Raise (HTTPException 500 "Internal server error"),
     ["Error processing webhook: No signatures found"]).
Proof.
  apply (webhook_hides_exception_text (ret "{}")
           (ret (stripe_raising (ValueError "No signatures found")))
           log_line "t" "=1,v1=abc" [] (ValueError "No signatures found") []);
    reflexivity.
Defined.

Lemma webhook_passes_http_on_witness :
  Main.stripe_webhook_direct (ret "{}")
    (ret (stripe_raising (HTTPException 400 "Invalid signature")))
    log_line (Some "t=1,v1=abc") []
  = (Raise (HTTPException 400 "Invalid signature"), []).
Proof.
  apply (webhook_passes_http_on (ret "{}")
           (ret (stripe_raising (HTTPException 400 "Invalid signature")))
           log_line "t" "=1,v1=abc" [] (HTTPException 400 "Invalid signature") []);
    reflexivity.
Defined.

Lemma forgot_password_same_answer_witness :
  fst (Auth.forgot_password (svc env0) "a@x.com" store_alice)
  = fst (Auth.forgot_password (svc env_later) "nobody@x.com" store_pending).
Proof.
  apply (proj1 (forgot_password_same_answer (svc env0) (svc env_later)
                  "a@x.com" "nobody@x.com" store_alice store_pending
                  (or_introl (ex_intro _ _ eq_refl))
                  (or_intror (ex_intro _ "User not found"
                     (ex_intro _ store_pending eq_refl))))).
Defined.

Example webhook_success :
  Main.stripe_webhook_direct (ret "{}") (ret stripe_ok) log_line (Some "t=1,v1=abc") []
  = (Ok (DictBody [("status", "success")]), []).
Proof. reflexivity. Qed.

(** A last send stored as 02:00:00+02:00, which is instant 0: refused one
    second later, accepted 120 seconds later. *)
Example resend_with_offset :
  let st := Service.mk_Store [alice] ∅
              {["a@x.com" := mk_datetime 7200000000 (Some 7200000000%Z)]} [] in
  status (respond (fst (Auth.resend_verification (svc env0) 1000000 "a@x.com" st)))
    = 429%Z /\
  status (respond (fst (Auth.resend_verification (svc env0) 120000000 "a@x.com" st)))
    = 200%Z.
Proof. intros st. split; reflexivity. Qed.
End MoreConcrete.
